(** * Lead-intake backend (src/main.py): a shallow embedding and its properties

    The FastAPI module [main.py] has three pieces of behaviour: the two
    notification senders, the [/test] diagnostics handler and the
    [POST /api/leads] handler.  Python [str] is modelled by the [string] of
    its UTF-8 bytes (a character is a code point: it begins at a byte that
    is not of the form 10xxxxxx), [Optional[str]] by [option string], a [dict] with
    string keys by [gmap string pyval], and [os.environ] by
    [gmap string string].  The document store and the two provider libraries
    are outside the module: they are oracles of a [World], and every call to
    them is recorded in a chronological trace of events. *)

From Stdlib Require Import String Ascii List ZArith Lia.
From stdpp Require Import base option strings gmap list.

Local Open Scope string_scope.
Local Open Scope list_scope.

(* stdpp blocks [simpl] on string concatenation; the proofs below compute with it. *)
#[local] Arguments String.append : simpl nomatch.

(** ** Python values and operators *)

Module Py.

(** Values stored in the response dictionaries of the handlers. *)
Inductive pyval :=
| VNone
| VBool (b : bool)
| VStr (s : string)
| VList (l : list string).

(** An instance of [Exception] raised by a collaborator.  Only two facts
    about it are observed by [main.py]: whether [except ImportError]
    matches it, and its [str(e)]. *)
Record exc := Exc { is_import_error : bool; str : string }.

Definition newline : string := String (ascii_of_nat 10) EmptyString.

(** Truth value of an [Optional[str]]: [None] and [''] are falsy. *)
Definition truthy (o : option string) : bool :=
  match o with
  | Some (String _ _) => true
  | Some EmptyString => false
  | None => false
  end.

(** [o or d] where [d] is a string. *)
Definition or_else (o : option string) (d : string) : string :=
  match o with
  | Some (String c s) => String c s
  | Some EmptyString => d
  | None => d
  end.

(** [s.startswith(p)] *)
Definition startswith (s p : string) : bool := String.prefix p s.

(** A byte of the form 10xxxxxx continues the character begun before it. *)
Definition is_continuation (c : ascii) : bool :=
  match c with
  | Ascii _ _ _ _ _ _ b6 b7 => b7 && negb b6
  end.

(** [len(s)]: the number of characters of [s]. *)
Fixpoint len (s : string) : nat :=
  match s with
  | EmptyString => 0
  | String c s' => (if is_continuation c then 0 else 1) + len s'
  end.

(** [s[:n]]: the first [n] characters of [s].  A byte that begins a
    character is kept while characters remain to be taken; the bytes that
    continue a kept character are kept with it. *)
Fixpoint slice_to (n : nat) (s : string) : string :=
  match s with
  | EmptyString => EmptyString
  | String c s' =>
      if is_continuation c then String c (slice_to n s')
      else match n with
           | 0 => EmptyString
           | S n' => String c (slice_to n' s')
           end
  end.

(** The six low bits of [cp] from bit [i] on, as a continuation byte. *)
Definition continuation_byte (cp i : N) : ascii :=
  Ascii (N.testbit cp i) (N.testbit cp (i + 1)) (N.testbit cp (i + 2))
    (N.testbit cp (i + 3)) (N.testbit cp (i + 4)) (N.testbit cp (i + 5)) false true.

(** The UTF-8 bytes of one code point. *)
Definition utf8_char (cp : N) : string :=
  if (cp <? 128)%N then
    String (Ascii (N.testbit cp 0) (N.testbit cp 1) (N.testbit cp 2) (N.testbit cp 3)
              (N.testbit cp 4) (N.testbit cp 5) (N.testbit cp 6) false) EmptyString
  else if (cp <? 2048)%N then
    String (Ascii (N.testbit cp 6) (N.testbit cp 7) (N.testbit cp 8) (N.testbit cp 9)
              (N.testbit cp 10) false true true)
      (String (continuation_byte cp 0) EmptyString)
  else if (cp <? 65536)%N then
    String (Ascii (N.testbit cp 12) (N.testbit cp 13) (N.testbit cp 14) (N.testbit cp 15)
              false true true true)
      (String (continuation_byte cp 6) (String (continuation_byte cp 0) EmptyString))
  else
    String (Ascii (N.testbit cp 18) (N.testbit cp 19) (N.testbit cp 20) false
              true true true true)
      (String (continuation_byte cp 12)
         (String (continuation_byte cp 6) (String (continuation_byte cp 0) EmptyString))).

(** The [string] that stands for the Python [str] with code points [cps]. *)
Fixpoint utf8 (cps : list N) : string :=
  match cps with
  | [] => EmptyString
  | cp :: cps' => utf8_char cp +:+ utf8 cps'
  end.


(** [s.replace(newline, t)]: every line break of [s] becomes [t]. *)
Fixpoint replace_newline (t : string) (s : string) : string :=
  match s with
  | EmptyString => EmptyString
  | String c s' =>
      if Ascii.eqb c (ascii_of_nat 10) then t +:+ replace_newline t s'
      else String c (replace_newline t s')
  end.

(** [os.getenv(k)] and [os.getenv(k, d)]. *)
Definition getenv (environ : gmap string string) (k : string) : option string :=
  environ !! k.

Definition getenv_default (environ : gmap string string) (k d : string) : string :=
  default d (environ !! k).

End Py.
Import Py.

(** ** The lead entity *)

(** Modelled from the spec: the pydantic class [Lead] of [schemas.py], which
    [main.py] imports but which is not part of the sources at hand.  Section 3
    of the specification gives its fields: [name] and [phone] are required
    text, the other four are optional text. *)
Record Lead := mkLead {
  name : string;
  phone : string;
  email : option string;
  selected_plan : option string;
  message : option string;
  source : option string
}.

(** ** Collaborators, events and the handler monad *)

(** What reaches the outside of [main.py], and the entry of each sender. *)
Inductive event :=
| CreateDocument (collection : string) (doc : Lead)
| CallSendEmail (subject body : string)
| CallSendWhatsapp (msg : string)
| SendGridAttempt (api_key from_email to_emails subject html_content : string)
| TwilioAttempt (account_sid auth_token from_ to_ body : string).

(** The database handle [db] that [/test] imports from [database]. *)
Record Db := mkDb {
  db_name : option string;                     (* [None]: no attribute [name] *)
  list_collection_names : exc + list string
}.

(** The environment and the collaborators.  Each oracle sees the events that
    happened before the call, so its answer may change from call to call. *)
Record World := mkWorld {
  environ : gmap string string;
  (* [database.create_document(collection, data)]: an exception or the id *)
  create_document : list event -> string -> Lead -> exc + string;
  (* the body of the [try] of the email sender: [None] when it completes *)
  sendgrid_send : list event -> string -> string -> string -> string -> string -> option exc;
  (* the body of the [try] of the messaging sender *)
  twilio_create : list event -> string -> string -> string -> string -> string -> option exc;
  (* [from database import db]: an exception, or [db], which may be [None] *)
  import_db : exc + option Db
}.

Inductive outcome (E A : Type) :=
| Returns (a : A)
| Raises (e : E).
Arguments Returns {E A} a.
Arguments Raises {E A} e.

(** A computation that may raise an [E] and extends the trace. *)
Definition M (E A : Type) : Type := list event -> outcome E A * list event.

Definition ret {E A} (a : A) : M E A := fun tr => (Returns a, tr).

Definition raise {E A} (e : E) : M E A := fun tr => (Raises e, tr).

Definition bind {E A B} (m : M E A) (k : A -> M E B) : M E B :=
  fun tr =>
    match m tr with
    | (Returns a, tr') => k a tr'
    | (Raises e, tr') => (Raises e, tr')
    end.

(** [try: m  except Exception as e: h e] *)
Definition try_except {E E' A} (m : M E A) (h : E -> M E' A) : M E' A :=
  fun tr =>
    match m tr with
    | (Returns a, tr') => (Returns a, tr')
    | (Raises e, tr') => h e tr'
    end.

Definition emit {E} (ev : event) : M E unit :=
  fun tr => (Returns tt, tr ++ [ev]).

(** A call that leaves [main.py]: the oracle answers from the history, and the
    call is appended to the trace whatever the answer. *)
Definition call_value {A} (ev : event) (oracle : list event -> exc + A) : M exc A :=
  fun tr =>
    (match oracle tr with inl e => Raises e | inr a => Returns a end, tr ++ [ev]).

Definition call_unit (ev : event) (oracle : list event -> option exc) : M exc unit :=
  fun tr =>
    (match oracle tr with Some e => Raises e | None => Returns tt end, tr ++ [ev]).

Notation "x <- c1 ;; c2" := (bind c1 (fun x => c2))
  (at level 100, c1 at next level, right associativity).
Notation "c1 ;;; c2" := (bind c1 (fun _ => c2))
  (at level 100, right associativity).

(** ** [main.py]: owner contacts and the two senders *)

Definition _owner_contacts (environ : gmap string string) : string * string :=
  let owner_email := getenv_default environ "OWNER_EMAIL" "krishpersonal6@gmail.com" in
  let owner_wa := getenv_default environ "OWNER_WHATSAPP_TO" "+917668222021" in
  (owner_email, owner_wa).

(** Line 33: the sender address, by its fallback chain. *)
Definition sendgrid_from_email (environ : gmap string string) : string :=
  or_else (getenv environ "SENDGRID_FROM_EMAIL")
    (or_else (getenv environ "OWNER_EMAIL") "krishpersonal6@gmail.com").

Definition send_email_via_sendgrid (w : World) (subject body : string) : M exc bool :=
  emit (CallSendEmail subject body) ;;;
  let api_key := getenv (environ w) "SENDGRID_API_KEY" in
  let from_email := sendgrid_from_email (environ w) in
  let to_email := fst (_owner_contacts (environ w)) in
  if negb (truthy api_key) then ret false
  else
    try_except
      (let key := default "" api_key in
       let html := replace_newline "<br>" body in
       call_unit (SendGridAttempt key from_email to_email subject html)
         (fun tr => sendgrid_send w tr key from_email to_email subject html) ;;;
       ret true)
      (fun _ => ret false).

(** Line 57: the destination handed to the provider. *)
Definition to_whatsapp (to_phone : string) : string :=
  if negb (startswith to_phone "whatsapp:") then "whatsapp:" +:+ to_phone
  else to_phone.

Definition send_whatsapp_via_twilio (w : World) (msg : string) : M exc bool :=
  emit (CallSendWhatsapp msg) ;;;
  let account_sid := getenv (environ w) "TWILIO_ACCOUNT_SID" in
  let auth_token := getenv (environ w) "TWILIO_AUTH_TOKEN" in
  let from_whatsapp := getenv (environ w) "TWILIO_WHATSAPP_FROM" in
  let to_phone := snd (_owner_contacts (environ w)) in
  let dest := to_whatsapp to_phone in
  if negb (truthy account_sid && truthy auth_token && truthy from_whatsapp)
  then ret false
  else
    try_except
      (let sid := default "" account_sid in
       let tok := default "" auth_token in
       let frm := default "" from_whatsapp in
       call_unit (TwilioAttempt sid tok frm dest msg)
         (fun tr => twilio_create w tr sid tok frm dest msg) ;;;
       ret true)
      (fun _ => ret false).

(** ** [main.py]: the [/test] diagnostics handler *)

Definition env_flag (environ : gmap string string) (k yes no : string) : pyval :=
  VStr (if truthy (getenv environ k) then yes else no).

Definition test_database (w : World) : gmap string pyval :=
  let response : gmap string pyval :=
    <["backend" := VStr "✅ Running"]>
    (<["database" := VStr "❌ Not Available"]>
    (<["database_url" := VNone]>
    (<["database_name" := VNone]>
    (<["connection_status" := VStr "Not Connected"]>
    (<["collections" := VList []]> ∅))))) in
  let response :=
    match import_db w with
    | inr (Some db) =>
        let response := <["database" := VStr "✅ Available"]> response in
        let response := <["database_url" := VStr "✅ Configured"]> response in
        let response :=
          <["database_name" := VStr (default "✅ Connected" (db_name db))]> response in
        let response := <["connection_status" := VStr "Connected"]> response in
        match list_collection_names db with
        | inr collections =>
            let response := <["collections" := VList (take 10 collections)]> response in
            <["database" := VStr "✅ Connected & Working"]> response
        | inl e =>
            <["database" := VStr ("⚠️  Connected but Error: " +:+ slice_to 50 (str e))]> response
        end
    | inr None =>
        <["database" := VStr "⚠️  Available but not initialized"]> response
    | inl e =>
        if is_import_error e
        then <["database" :=
                 VStr "❌ Database module not found (run enable-database first)"]> response
        else <["database" := VStr ("❌ Error: " +:+ slice_to 50 (str e))]> response
    end in
  let response :=
    <["database_url" := env_flag (environ w) "DATABASE_URL" "✅ Set" "❌ Not Set"]> response in
  let response :=
    <["database_name" := env_flag (environ w) "DATABASE_NAME" "✅ Set" "❌ Not Set"]> response in
  let response :=
    <["email_provider" :=
        VStr (if truthy (getenv (environ w) "SENDGRID_API_KEY")
              then "✅ SendGrid" else "❌ Not Configured")]> response in
  let response :=
    <["whatsapp_provider" :=
        VStr (if truthy (getenv (environ w) "TWILIO_ACCOUNT_SID")
                 && truthy (getenv (environ w) "TWILIO_AUTH_TOKEN")
                 && truthy (getenv (environ w) "TWILIO_WHATSAPP_FROM")
              then "✅ Twilio" else "❌ Not Configured")]> response in
  response.

(** ** [main.py]: the [POST /api/leads] handler *)

(** What FastAPI turns into an error response. *)
Inductive http_error :=
| HTTPException (status_code : Z) (detail : string)
| RequestValidationError.

Definition notification_subject : string := "New IronPulse Lead".

Definition notification_text (lead : Lead) (lead_id : string) : string :=
  "New gym lead" +:+ newline +:+
  "Name: " +:+ name lead +:+ newline +:+
  "Phone: " +:+ phone lead +:+ newline +:+
  "Email: " +:+ or_else (email lead) "-" +:+ newline +:+
  "Plan: " +:+ or_else (selected_plan lead) "-" +:+ newline +:+
  "Message: " +:+ or_else (message lead) "-" +:+ newline +:+
  "Source: " +:+ or_else (source lead) "web" +:+ newline +:+
  "Lead ID: " +:+ lead_id.

Definition lead_response (lead_id : string) (email_sent wa_sent : bool)
  : gmap string pyval :=
  <["ok" := VBool true]>
  (<["id" := VStr lead_id]>
  (<["email_sent" := VBool email_sent]>
  (<["whatsapp_sent" := VBool wa_sent]> ∅))).

Definition create_lead (w : World) (lead : Lead) : M http_error (gmap string pyval) :=
  try_except
    (lead_id <- call_value (CreateDocument "lead" lead)
                  (fun tr => create_document w tr "lead" lead) ;;
     let subject := notification_subject in
     let text := notification_text lead lead_id in
     email_sent <- send_email_via_sendgrid w subject text ;;
     wa_sent <- send_whatsapp_via_twilio w text ;;
     ret (lead_response lead_id email_sent wa_sent))
    (fun e => raise (HTTPException 500 (str e))).

(** ** Request validation in front of the handler *)

(** A JSON body as FastAPI receives it: each key may be missing. *)
Record Payload := mkPayload {
  p_name : option string;
  p_phone : option string;
  p_email : option string;
  p_selected_plan : option string;
  p_message : option string;
  p_source : option string
}.

Section Validation.

(** The syntactic check behind [EmailStr]; it belongs to pydantic. *)
Variable email_syntax_ok : string -> bool.

(** Modelled from the spec: the structural validation that FastAPI runs
    against [schemas.Lead] before [create_lead] is entered; [schemas.py] is
    not part of the sources at hand.  Section 4.5, step 1: the request is
    rejected if a required field is missing or the email field, if present,
    is not a syntactically valid address. *)
Definition validate (p : Payload) : option Lead :=
  match p_name p, p_phone p with
  | Some n, Some ph =>
      match p_email p with
      | Some e =>
          if email_syntax_ok e
          then Some (mkLead n ph (Some e) (p_selected_plan p) (p_message p) (p_source p))
          else None
      | None =>
          Some (mkLead n ph None (p_selected_plan p) (p_message p) (p_source p))
      end
  | _, _ => None
  end.

(** The route: validation first, then the handler of [main.py]. *)
Definition post_api_leads (w : World) (p : Payload) : M http_error (gmap string pyval) :=
  match validate p with
  | Some lead => create_lead w lead
  | None => raise RequestValidationError
  end.

End Validation.

(** ** Reading the trace *)

Definition is_email_call (ev : event) : bool :=
  match ev with CallSendEmail _ _ => true | _ => false end.

Definition is_whatsapp_call (ev : event) : bool :=
  match ev with CallSendWhatsapp _ => true | _ => false end.

Definition is_create (ev : event) : bool :=
  match ev with CreateDocument _ _ => true | _ => false end.

Definition is_sendgrid_attempt (ev : event) : bool :=
  match ev with SendGridAttempt _ _ _ _ _ => true | _ => false end.

Definition is_twilio_attempt (ev : event) : bool :=
  match ev with TwilioAttempt _ _ _ _ _ => true | _ => false end.

Fixpoint count_events (p : event -> bool) (tr : list event) : nat :=
  match tr with
  | [] => 0
  | ev :: tr' => (if p ev then 1 else 0) + count_events p tr'
  end.

(** ** Reading the configuration *)

(** The test [if os.getenv(k)]: the variable is set, to a non-empty value. *)
Definition env_set (environ : gmap string string) (k : string) : bool :=
  truthy (getenv environ k).

(** Some behaviour of the provider makes the email sender return [True]. *)
Definition email_can_succeed (env : gmap string string) : Prop :=
  exists w subject body tr tr',
    environ w = env /\
    send_email_via_sendgrid w subject body tr = (Returns true, tr').

(** Some behaviour of the provider makes the messaging sender return [True]. *)
Definition whatsapp_can_succeed (env : gmap string string) : Prop :=
  exists w msg tr tr',
    environ w = env /\
    send_whatsapp_via_twilio w msg tr = (Returns true, tr').

(** The provider attempt that a configured email sender records. *)
Definition sendgrid_attempt (w : World) (subject body : string) : event :=
  SendGridAttempt (default "" (getenv (environ w) "SENDGRID_API_KEY"))
    (sendgrid_from_email (environ w))
    (fst (_owner_contacts (environ w))) subject (replace_newline "<br>" body).

(** The provider attempt that a configured messaging sender records. *)
Definition twilio_attempt (w : World) (msg : string) : event :=
  TwilioAttempt (default "" (getenv (environ w) "TWILIO_ACCOUNT_SID"))
    (default "" (getenv (environ w) "TWILIO_AUTH_TOKEN"))
    (default "" (getenv (environ w) "TWILIO_WHATSAPP_FROM"))
    (to_whatsapp (snd (_owner_contacts (environ w)))) msg.

(** The eight lines of the notification body, as the specification lists
    them: label, name, phone, email, plan, message, source, identifier. *)
Definition body_lines (lead : Lead) (lead_id : string) : list string :=
  [ "New gym lead";
    "Name: " +:+ name lead;
    "Phone: " +:+ phone lead;
    "Email: " +:+ or_else (email lead) "-";
    "Plan: " +:+ or_else (selected_plan lead) "-";
    "Message: " +:+ or_else (message lead) "-";
    "Source: " +:+ or_else (source lead) "web";
    "Lead ID: " +:+ lead_id ].

(** ** [main.py]: the two greeting routes *)

Definition read_root : gmap string pyval :=
  <["message" := VStr "Hello from FastAPI Backend!"]> ∅.

Definition hello : gmap string pyval :=
  <["message" := VStr "Hello from the backend API!"]> ∅.

(** ** More ways to read a run *)

(** The test of line 59 on the three messaging variables. *)
Definition whatsapp_configured (environ : gmap string string) : bool :=
  env_set environ "TWILIO_ACCOUNT_SID" && env_set environ "TWILIO_AUTH_TOKEN"
  && env_set environ "TWILIO_WHATSAPP_FROM".

(** The body of a [try] ran to its end. *)
Definition completes (o : option exc) : bool :=
  match o with None => true | Some _ => false end.

(** Number of line breaks in a string. *)
Fixpoint count_newlines (s : string) : nat :=
  match s with
  | EmptyString => 0
  | String c s' => (if Ascii.eqb c (ascii_of_nat 10) then 1 else 0) + count_newlines s'
  end.

(** Over a whole trace: the two senders were entered equally often, no more
    often than the store was called, and each provider was reached no more
    often than its sender was entered. *)
Definition notifications_balanced (tr : list event) : Prop :=
  count_events is_email_call tr = count_events is_whatsapp_call tr /\
  count_events is_email_call tr <= count_events is_create tr /\
  count_events is_sendgrid_attempt tr <= count_events is_email_call tr /\
  count_events is_twilio_attempt tr <= count_events is_whatsapp_call tr.

(** ** Worlds used in the examples *)

Module Demo.

Definition alice : Lead := mkLead "Alice" "+1555000111" None None None None.

Definition carol : Lead :=
  mkLead "Carol" "+1555000333" (Some "carol@example.com") (Some "Pro")
    (Some "Call me") (Some "landing").

Definition boom : exc := Exc false "connection refused".

Definition store_ok : list event -> string -> Lead -> exc + string :=
  fun _ _ _ => inr "65f0c0ffee".

Definition store_down : list event -> string -> Lead -> exc + string :=
  fun _ _ _ => inl boom.

Definition provider_ok : list event -> string -> string -> string -> string -> string -> option exc :=
  fun _ _ _ _ _ _ => None.

Definition provider_down : list event -> string -> string -> string -> string -> string -> option exc :=
  fun _ _ _ _ _ _ => Some boom.

Definition env_empty : gmap string string := ∅.

Definition env_sendgrid : gmap string string :=
  <["SENDGRID_API_KEY" := "SG.key"]> ∅.

Definition env_twilio_partial : gmap string string :=
  <["TWILIO_ACCOUNT_SID" := "AC1"]> (<["TWILIO_AUTH_TOKEN" := "tok"]> ∅).

Definition env_full : gmap string string :=
  <["SENDGRID_API_KEY" := "SG.key"]>
  (<["TWILIO_ACCOUNT_SID" := "AC1"]>
  (<["TWILIO_AUTH_TOKEN" := "tok"]>
  (<["TWILIO_WHATSAPP_FROM" := "whatsapp:+14155238886"]>
  (<["OWNER_WHATSAPP_TO" := "whatsapp:+15550001"]> ∅)))).

(** The key variable exported with an empty value. *)
Definition env_blank_key : gmap string string :=
  <["SENDGRID_API_KEY" := ""]> ∅.

Definition db_many : Db :=
  mkDb (Some "gym")
    (inr ["c01"; "c02"; "c03"; "c04"; "c05"; "c06"; "c07"; "c08"; "c09"; "c10"; "c11"; "c12"]).

Definition long_error : exc :=
  Exc false "0123456789012345678901234567890123456789012345678901234567890123456789".

Definition db_broken : Db := mkDb None (inl long_error).

(** An error text of 60 accented letters, two bytes each. *)
Definition accented_error : exc := Exc false "éééééééééééééééééééééééééééééééééééééééééééééééééééééééééééé".

Definition db_accented : Db := mkDb None (inl accented_error).

Definition accented : World :=
  mkWorld env_empty store_ok provider_ok provider_ok (inr (Some db_accented)).


(** No provider configured, working store, no database handle. *)
Definition quiet : World := mkWorld env_empty store_ok provider_ok provider_ok (inr None).

(** Everything configured and working. *)
Definition full : World :=
  mkWorld env_full store_ok provider_ok provider_ok (inr (Some db_many)).

(** Everything configured, both providers and the store failing. *)
Definition failing : World :=
  mkWorld env_full store_down provider_down provider_down (inr (Some db_broken)).

(** Email configured only. *)
Definition email_only : World :=
  mkWorld env_sendgrid store_ok provider_ok provider_ok (inl long_error).

Definition blank_key : World :=
  mkWorld env_blank_key store_ok provider_ok provider_ok (inr None).

(** Owner contacts configured, no explicit sender address. *)
Definition env_owner : gmap string string :=
  <["SENDGRID_API_KEY" := "SG.key"]>
  (<["OWNER_EMAIL" := "owner@gym.example"]>
  (<["OWNER_WHATSAPP_TO" := "+15550009"]> ∅)).

Definition owner : World :=
  mkWorld env_owner store_ok provider_ok provider_ok (inr (Some db_broken)).

Definition twilio_partial : World :=
  mkWorld env_twilio_partial store_ok provider_ok provider_ok (inl (Exc true "No module named 'database'")).

End Demo.

(** ** Sanity checks on concrete inputs *)

Example quiet_alice :
  create_lead Demo.quiet Demo.alice [] =
  (Returns (lead_response "65f0c0ffee" false false),
   [CreateDocument "lead" Demo.alice;
    CallSendEmail "New IronPulse Lead" (notification_text Demo.alice "65f0c0ffee");
    CallSendWhatsapp (notification_text Demo.alice "65f0c0ffee")]).
Proof. vm_compute. reflexivity. Qed.

Example full_carol_sent :
  fst (create_lead Demo.full Demo.carol []) = Returns (lead_response "65f0c0ffee" true true).
Proof. vm_compute. reflexivity. Qed.

Example failing_carol :
  create_lead Demo.failing Demo.carol [] =
  (Raises (HTTPException 500 "connection refused"), [CreateDocument "lead" Demo.carol]).
Proof. vm_compute. reflexivity. Qed.

Example full_destination :
  snd (send_whatsapp_via_twilio Demo.full "hi" []) =
  [CallSendWhatsapp "hi";
   TwilioAttempt "AC1" "tok" "whatsapp:+14155238886" "whatsapp:+15550001" "hi"].
Proof. vm_compute. reflexivity. Qed.

Example email_only_carol_sent :
  fst (create_lead Demo.email_only Demo.carol []) =
  Returns (lead_response "65f0c0ffee" true false).
Proof. vm_compute. reflexivity. Qed.

(** An empty [SENDGRID_API_KEY] is falsy for [if not api_key] and for the
    report of [/test] alike. *)
Example blank_key_is_unconfigured :
  send_email_via_sendgrid Demo.blank_key "s" "b" [] = (Returns false, [CallSendEmail "s" "b"]) /\
  test_database Demo.blank_key !! "email_provider" = Some (VStr "❌ Not Configured").
Proof. split; vm_compute; reflexivity. Qed.

Example full_html_body :
  replace_newline "<br>" (notification_text Demo.alice "7") =
  "New gym lead<br>Name: Alice<br>Phone: +1555000111<br>Email: -<br>Plan: -<br>Message: -<br>Source: web<br>Lead ID: 7".
Proof. reflexivity. Qed.

Example quiet_destination : to_whatsapp "+917668222021" = "whatsapp:+917668222021".
Proof. reflexivity. Qed.

(** ** Strings *)

Lemma length_append (a b : string) :
  String.length (a +:+ b) = String.length a + String.length b.
Proof. induction a as [|x a IH]; simpl; [reflexivity | now rewrite IH]. Qed.

(** Two strings of different length are different. *)
Ltac length_clash H :=
  apply (f_equal String.length) in H;
  repeat (simpl in H; rewrite ?length_append in H);
  lia.

Section StringFacts.

Lemma append_assoc (a b c : string) : (a +:+ b) +:+ c = a +:+ (b +:+ c).
Proof. induction a as [|x a IH]; simpl; [reflexivity | now rewrite IH]. Qed.

Lemma append_not_fixpoint (c : ascii) (a b : string) : String c a +:+ b <> b.
Proof. intros H. length_clash H. Qed.

Lemma prefix_append_l (a b s : string) :
  String.prefix (a +:+ b) s = true -> String.prefix a s = true.
Proof.
  revert s. induction a as [|x a IH]; intros s H.
  - destruct s; reflexivity.
  - destruct s as [|y s]; simpl in *; [discriminate |].
    destruct (ascii_dec x y); [now apply IH | discriminate].
Qed.








End StringFacts.

(** ** Truth values of environment entries *)

Lemma truthy_Some (o : option string) : truthy o = true -> is_Some o.
Proof. destruct o; [eauto | discriminate]. Qed.

Lemma truthy_None (o : option string) : o = None -> truthy o = false.
Proof. now intros ->. Qed.

Lemma or_else_None (d : string) : or_else None d = d.
Proof. reflexivity. Qed.

Lemma or_else_nonempty (s d : string) : s <> "" -> or_else (Some s) d = s.
Proof. destruct s; [congruence | reflexivity]. Qed.

(** ** The senders, case by case *)

Section Senders.

Variable w : World.

Let api_key := getenv (environ w) "SENDGRID_API_KEY".
Let sid := getenv (environ w) "TWILIO_ACCOUNT_SID".
Let tok := getenv (environ w) "TWILIO_AUTH_TOKEN".
Let frm := getenv (environ w) "TWILIO_WHATSAPP_FROM".

Lemma send_email_unconfigured subject body tr :
  truthy api_key = false ->
  send_email_via_sendgrid w subject body tr =
  (Returns false, tr ++ [CallSendEmail subject body]).
Proof.
  intros H. unfold send_email_via_sendgrid, bind, emit, ret. fold api_key.
  now rewrite H.
Qed.

Lemma send_email_configured subject body tr :
  truthy api_key = true ->
  send_email_via_sendgrid w subject body tr =
  (Returns
     (match sendgrid_send w (tr ++ [CallSendEmail subject body]) (default "" api_key)
              (sendgrid_from_email (environ w)) (fst (_owner_contacts (environ w)))
              subject (replace_newline "<br>" body)
      with None => true | Some _ => false end),
   (tr ++ [CallSendEmail subject body]) ++ [sendgrid_attempt w subject body]).
Proof.
  intros H.
  unfold send_email_via_sendgrid, bind, emit, ret, try_except, call_unit, sendgrid_attempt.
  fold api_key. rewrite H. simpl.
  now destruct (sendgrid_send w _ _ _ _ _ _).
Qed.

Lemma send_whatsapp_unconfigured msg tr :
  truthy sid && truthy tok && truthy frm = false ->
  send_whatsapp_via_twilio w msg tr =
  (Returns false, tr ++ [CallSendWhatsapp msg]).
Proof.
  intros H. unfold send_whatsapp_via_twilio, bind, emit, ret.
  fold sid tok frm. now rewrite H.
Qed.

Lemma send_whatsapp_configured msg tr :
  truthy sid && truthy tok && truthy frm = true ->
  send_whatsapp_via_twilio w msg tr =
  (Returns
     (match twilio_create w (tr ++ [CallSendWhatsapp msg]) (default "" sid)
              (default "" tok) (default "" frm)
              (to_whatsapp (snd (_owner_contacts (environ w)))) msg
      with None => true | Some _ => false end),
   (tr ++ [CallSendWhatsapp msg]) ++ [twilio_attempt w msg]).
Proof.
  intros H.
  unfold send_whatsapp_via_twilio, bind, emit, ret, try_except, call_unit, twilio_attempt.
  fold sid tok frm. rewrite H. simpl.
  now destruct (twilio_create w _ _ _ _ _ _).
Qed.

End Senders.

Lemma count_events_app (p : event -> bool) (a b : list event) :
  count_events p (a ++ b) = count_events p a + count_events p b.
Proof. induction a as [|ev a IH]; simpl; [reflexivity | rewrite IH; lia]. Qed.

(** ** The email sender *)

(** C4: [send_email_via_sendgrid] always returns a boolean and never raises.
    When [SENDGRID_API_KEY] is absent it returns [False] at once: the trace
    holds the call and no provider attempt.  When the key is set and the
    provider block raises any exception [e], the exception is swallowed and
    the sender returns [False]. *)
Theorem send_email_via_sendgrid_never_raises
    (w : World) (subject body : string) (tr : list event) :
  (exists b tr', send_email_via_sendgrid w subject body tr = (Returns b, tr')) /\
  (getenv (environ w) "SENDGRID_API_KEY" = None ->
   send_email_via_sendgrid w subject body tr =
   (Returns false, tr ++ [CallSendEmail subject body])) /\
  (forall e : exc,
     env_set (environ w) "SENDGRID_API_KEY" = true ->
     sendgrid_send w (tr ++ [CallSendEmail subject body])
       (default "" (getenv (environ w) "SENDGRID_API_KEY"))
       (sendgrid_from_email (environ w)) (fst (_owner_contacts (environ w)))
       subject (replace_newline "<br>" body) = Some e ->
     send_email_via_sendgrid w subject body tr =
     (Returns false,
      (tr ++ [CallSendEmail subject body]) ++ [sendgrid_attempt w subject body])).
Proof.
  split; [| split].
  - destruct (truthy (getenv (environ w) "SENDGRID_API_KEY")) eqn:Hk.
    + rewrite (send_email_configured w subject body tr Hk). eauto.
    + rewrite (send_email_unconfigured w subject body tr Hk). eauto.
  - intros Habs. apply send_email_unconfigured. now apply truthy_None.
  - intros e Hk He. unfold env_set in Hk.
    rewrite (send_email_configured w subject body tr Hk). now rewrite He.
Qed.

Lemma send_email_via_sendgrid_never_raises_witness :
  send_email_via_sendgrid Demo.quiet "s" "b" [] = (Returns false, [CallSendEmail "s" "b"]) /\
  send_email_via_sendgrid Demo.failing "s" "b" [] =
  (Returns false, [CallSendEmail "s" "b"] ++ [sendgrid_attempt Demo.failing "s" "b"]).
Proof.
  split.
  - apply (proj1 (proj2 (send_email_via_sendgrid_never_raises Demo.quiet "s" "b" []))).
    reflexivity.
  - apply (proj2 (proj2 (send_email_via_sendgrid_never_raises Demo.failing "s" "b" []))
             Demo.boom); reflexivity.
Defined.

(** ** The messaging sender *)

(** C5: when one of [TWILIO_ACCOUNT_SID], [TWILIO_AUTH_TOKEN] and
    [TWILIO_WHATSAPP_FROM] is absent, [send_whatsapp_via_twilio] returns
    [False] without raising and without any provider attempt; and a provider
    attempt during the call implies that all three are present. *)
Theorem send_whatsapp_via_twilio_needs_all_three
    (w : World) (msg : string) (tr : list event) :
  (getenv (environ w) "TWILIO_ACCOUNT_SID" = None \/
   getenv (environ w) "TWILIO_AUTH_TOKEN" = None \/
   getenv (environ w) "TWILIO_WHATSAPP_FROM" = None ->
   send_whatsapp_via_twilio w msg tr = (Returns false, tr ++ [CallSendWhatsapp msg])) /\
  (count_events is_twilio_attempt tr <
   count_events is_twilio_attempt (snd (send_whatsapp_via_twilio w msg tr)) ->
   is_Some (getenv (environ w) "TWILIO_ACCOUNT_SID") /\
   is_Some (getenv (environ w) "TWILIO_AUTH_TOKEN") /\
   is_Some (getenv (environ w) "TWILIO_WHATSAPP_FROM")).
Proof.
  split.
  - intros H. apply send_whatsapp_unconfigured.
    destruct H as [-> | [-> | ->]]; simpl;
      rewrite ?andb_false_r; reflexivity.
  - intros Hlt.
    destruct (truthy (getenv (environ w) "TWILIO_ACCOUNT_SID")
              && truthy (getenv (environ w) "TWILIO_AUTH_TOKEN")
              && truthy (getenv (environ w) "TWILIO_WHATSAPP_FROM")) eqn:Hc.
    + apply andb_prop in Hc as [Hc H3]. apply andb_prop in Hc as [H1 H2].
      auto using truthy_Some.
    + rewrite (send_whatsapp_unconfigured w msg tr Hc) in Hlt. simpl in Hlt.
      rewrite count_events_app in Hlt. simpl in Hlt. lia.
Qed.

Lemma send_whatsapp_via_twilio_needs_all_three_witness :
  send_whatsapp_via_twilio Demo.twilio_partial "hi" [] =
  (Returns false, [CallSendWhatsapp "hi"]) /\
  is_Some (getenv (environ Demo.full) "TWILIO_WHATSAPP_FROM").
Proof.
  split.
  - apply (proj1 (send_whatsapp_via_twilio_needs_all_three Demo.twilio_partial "hi" [])).
    right; right; reflexivity.
  - apply (proj2 (send_whatsapp_via_twilio_needs_all_three Demo.full "hi" [])).
    vm_compute. lia.
Defined.

(** C6: the destination is the owner phone with the prefix ["whatsapp:"] put
    in front exactly when the phone does not start with it; a phone that
    starts with the prefix is used unchanged.  Hence the result always
    carries the prefix, normalising twice changes nothing, and the result
    starts with a doubled prefix only if the input already did.  When the
    sender is configured, this destination is the one handed to the
    provider. *)
Theorem to_whatsapp_prefixes_once
    (to_phone : string) (w : World) (msg : string) (tr : list event) :
  (to_whatsapp to_phone = "whatsapp:" +:+ to_phone <->
   startswith to_phone "whatsapp:" = false) /\
  (to_whatsapp to_phone = to_phone <-> startswith to_phone "whatsapp:" = true) /\
  startswith (to_whatsapp to_phone) "whatsapp:" = true /\
  to_whatsapp (to_whatsapp to_phone) = to_whatsapp to_phone /\
  startswith (to_whatsapp to_phone) "whatsapp:whatsapp:" =
  startswith to_phone "whatsapp:whatsapp:" /\
  (env_set (environ w) "TWILIO_ACCOUNT_SID" &&
   env_set (environ w) "TWILIO_AUTH_TOKEN" &&
   env_set (environ w) "TWILIO_WHATSAPP_FROM" = true ->
   snd (send_whatsapp_via_twilio w msg tr) =
   (tr ++ [CallSendWhatsapp msg]) ++
   [TwilioAttempt (default "" (getenv (environ w) "TWILIO_ACCOUNT_SID"))
      (default "" (getenv (environ w) "TWILIO_AUTH_TOKEN"))
      (default "" (getenv (environ w) "TWILIO_WHATSAPP_FROM"))
      (to_whatsapp (snd (_owner_contacts (environ w)))) msg]).
Proof.
  assert (Hpre : forall p, startswith ("whatsapp:" +:+ p) "whatsapp:" = true).
  { intros p. unfold startswith. simpl. now destruct p. }
  assert (Hsent :
    env_set (environ w) "TWILIO_ACCOUNT_SID" &&
    env_set (environ w) "TWILIO_AUTH_TOKEN" &&
    env_set (environ w) "TWILIO_WHATSAPP_FROM" = true ->
    snd (send_whatsapp_via_twilio w msg tr) =
    (tr ++ [CallSendWhatsapp msg]) ++ [twilio_attempt w msg]).
  { intros Hc. unfold env_set in Hc.
    now rewrite (send_whatsapp_configured w msg tr Hc). }
  unfold to_whatsapp.
  destruct (startswith to_phone "whatsapp:") eqn:Hs; cbn [negb].
  - rewrite Hs. cbn [negb].
    repeat split; try congruence; try exact Hsent.
    intros H. length_clash H.
  - rewrite (Hpre to_phone). cbn [negb].
    repeat split; try congruence; try exact Hsent; try apply Hpre;
      try (intros H; length_clash H).
    unfold startswith in *.
    destruct (String.prefix "whatsapp:whatsapp:" to_phone) eqn:Hd.
    + apply (prefix_append_l "whatsapp:" "whatsapp:") in Hd. congruence.
    + simpl. simpl in Hs. exact Hs.
Qed.

Lemma to_whatsapp_prefixes_once_witness :
  to_whatsapp "+917668222021" = "whatsapp:" +:+ "+917668222021" /\
  to_whatsapp "whatsapp:+15550001" = "whatsapp:+15550001" /\
  snd (send_whatsapp_via_twilio Demo.full "hi" []) =
  [CallSendWhatsapp "hi"] ++
  [TwilioAttempt "AC1" "tok" "whatsapp:+14155238886" "whatsapp:+15550001" "hi"].
Proof.
  split; [| split].
  - apply (proj1 (to_whatsapp_prefixes_once "+917668222021" Demo.quiet "hi" [])).
    reflexivity.
  - apply (proj1 (proj2 (to_whatsapp_prefixes_once "whatsapp:+15550001" Demo.quiet "hi" []))).
    reflexivity.
  - apply (proj2 (proj2 (proj2 (proj2 (proj2
             (to_whatsapp_prefixes_once "" Demo.full "hi" [])))))).
    reflexivity.
Defined.

(** ** The trace of one sender call *)

Lemma send_email_shape (w : World) (subject body : string) (tr : list event) :
  exists b evs,
    send_email_via_sendgrid w subject body tr =
    (Returns b, tr ++ CallSendEmail subject body :: evs) /\
    (evs = [] \/ evs = [sendgrid_attempt w subject body]).
Proof.
  destruct (truthy (getenv (environ w) "SENDGRID_API_KEY")) eqn:Hk.
  - rewrite (send_email_configured w subject body tr Hk).
    rewrite <- app_assoc. simpl. eauto.
  - rewrite (send_email_unconfigured w subject body tr Hk). eauto.
Qed.

Lemma send_whatsapp_shape (w : World) (msg : string) (tr : list event) :
  exists b evs,
    send_whatsapp_via_twilio w msg tr =
    (Returns b, tr ++ CallSendWhatsapp msg :: evs) /\
    (evs = [] \/ evs = [twilio_attempt w msg]).
Proof.
  destruct (truthy (getenv (environ w) "TWILIO_ACCOUNT_SID")
            && truthy (getenv (environ w) "TWILIO_AUTH_TOKEN")
            && truthy (getenv (environ w) "TWILIO_WHATSAPP_FROM")) eqn:Hc.
  - rewrite (send_whatsapp_configured w msg tr Hc).
    rewrite <- app_assoc. simpl. eauto.
  - rewrite (send_whatsapp_unconfigured w msg tr Hc). eauto.
Qed.

(** ** The lead handler *)

(** C1: when [create_document] returns an identifier, [create_lead] returns
    the dictionary with [ok] true, that identifier, and under [email_sent]
    and [whatsapp_sent] the booleans returned by the email sender and by the
    messaging sender, whatever these booleans are.  Each sender is entered
    exactly once, the messaging sender with the same text whatever the email
    sender returned. *)
Theorem create_lead_success
    (w : World) (lead : Lead) (tr : list event) (lead_id : string) :
  create_document w tr "lead" lead = inr lead_id ->
  exists (email_sent wa_sent : bool) (tr1 tr2 new : list event),
    send_email_via_sendgrid w notification_subject (notification_text lead lead_id)
      (tr ++ [CreateDocument "lead" lead]) = (Returns email_sent, tr1) /\
    send_whatsapp_via_twilio w (notification_text lead lead_id) tr1 =
      (Returns wa_sent, tr2) /\
    create_lead w lead tr =
      (Returns (<["ok" := VBool true]>
                (<["id" := VStr lead_id]>
                (<["email_sent" := VBool email_sent]>
                (<["whatsapp_sent" := VBool wa_sent]> ∅)))), tr2) /\
    tr2 = tr ++ new /\
    count_events is_create new = 1 /\
    count_events is_email_call new = 1 /\
    count_events is_whatsapp_call new = 1.
Proof.
  intros Hid.
  set (text := notification_text lead lead_id).
  set (tr0 := tr ++ [CreateDocument "lead" lead]).
  destruct (send_email_shape w notification_subject text tr0) as (b1 & evs1 & He & Hevs1).
  set (tr1 := tr0 ++ CallSendEmail notification_subject text :: evs1) in *.
  destruct (send_whatsapp_shape w text tr1) as (b2 & evs2 & Hw & Hevs2).
  exists b1, b2, tr1, (tr1 ++ CallSendWhatsapp text :: evs2),
    (CreateDocument "lead" lead
       :: (CallSendEmail notification_subject text :: evs1)
       ++ CallSendWhatsapp text :: evs2).
  split; [exact He |]. split; [exact Hw |]. split; [| split].
  - unfold create_lead, try_except, bind, call_value, ret.
    rewrite Hid. fold text tr0. rewrite He. rewrite Hw. reflexivity.
  - unfold tr1, tr0. rewrite <- !app_assoc. reflexivity.
  - simpl. rewrite !count_events_app. simpl.
    destruct Hevs1 as [-> | ->], Hevs2 as [-> | ->]; simpl; repeat split; lia.
Qed.

Lemma create_lead_success_witness :
  exists (email_sent wa_sent : bool) (tr1 tr2 new : list event),
    send_email_via_sendgrid Demo.email_only notification_subject
      (notification_text Demo.carol "65f0c0ffee")
      ([] ++ [CreateDocument "lead" Demo.carol]) = (Returns email_sent, tr1) /\
    send_whatsapp_via_twilio Demo.email_only
      (notification_text Demo.carol "65f0c0ffee") tr1 = (Returns wa_sent, tr2) /\
    create_lead Demo.email_only Demo.carol [] =
      (Returns (<["ok" := VBool true]>
                (<["id" := VStr "65f0c0ffee"]>
                (<["email_sent" := VBool email_sent]>
                (<["whatsapp_sent" := VBool wa_sent]> ∅)))), tr2) /\
    tr2 = [] ++ new /\
    count_events is_create new = 1 /\
    count_events is_email_call new = 1 /\
    count_events is_whatsapp_call new = 1.
Proof.
  apply (create_lead_success Demo.email_only Demo.carol [] "65f0c0ffee").
  reflexivity.
Defined.

(** C2: when [create_document] raises [e], [create_lead] raises the HTTP
    error 500 whose detail is [str(e)], and the only event of the request is
    the failed store call: neither sender is entered and no provider is
    reached. *)
Theorem create_lead_store_failure
    (w : World) (lead : Lead) (tr : list event) (e : exc) :
  create_document w tr "lead" lead = inl e ->
  create_lead w lead tr =
    (Raises (HTTPException 500 (str e)), tr ++ [CreateDocument "lead" lead]) /\
  forall new, snd (create_lead w lead tr) = tr ++ new ->
    count_events is_email_call new = 0 /\
    count_events is_whatsapp_call new = 0 /\
    count_events is_sendgrid_attempt new = 0 /\
    count_events is_twilio_attempt new = 0.
Proof.
  intros He.
  assert (Hrun : create_lead w lead tr =
            (Raises (HTTPException 500 (str e)), tr ++ [CreateDocument "lead" lead])).
  { unfold create_lead, try_except, bind, call_value, raise. now rewrite He. }
  split; [exact Hrun |].
  intros new Hnew. rewrite Hrun in Hnew. simpl in Hnew.
  apply app_inv_head in Hnew. subst new. simpl. repeat split; reflexivity.
Qed.

Lemma create_lead_store_failure_witness :
  create_lead Demo.failing Demo.carol [] =
    (Raises (HTTPException 500 "connection refused"), [CreateDocument "lead" Demo.carol]).
Proof.
  apply (proj1 (create_lead_store_failure Demo.failing Demo.carol [] Demo.boom eq_refl)).
Defined.

(** C7: on a successful store call both senders receive one and the same
    body, which depends on the lead and the identifier only: the eight
    lines label, Name, Phone, Email, Plan, Message, Source, Lead ID joined
    by line breaks in this order.  An absent email, plan or message is
    shown as ["-"], an absent source as ["web"], and a non-empty value is
    shown as it is. *)
Theorem notification_body_layout
    (w : World) (lead : Lead) (tr : list event) (lead_id : string) :
  notification_text lead lead_id = String.concat newline (body_lines lead lead_id) /\
  body_lines lead lead_id !! 0 = Some "New gym lead" /\
  (forall d : string, or_else None d = d) /\
  (forall s d : string, s <> "" -> or_else (Some s) d = s) /\
  (create_document w tr "lead" lead = inr lead_id ->
   exists evs1 evs2,
     snd (create_lead w lead tr) =
     tr ++ CreateDocument "lead" lead
        :: (CallSendEmail "New IronPulse Lead"
              (String.concat newline (body_lines lead lead_id)) :: evs1)
        ++ CallSendWhatsapp (String.concat newline (body_lines lead lead_id)) :: evs2 /\
     count_events is_email_call evs1 = 0 /\ count_events is_whatsapp_call evs1 = 0 /\
     count_events is_email_call evs2 = 0 /\ count_events is_whatsapp_call evs2 = 0).
Proof.
  assert (Htext : notification_text lead lead_id =
                  String.concat newline (body_lines lead lead_id)).
  { unfold notification_text, body_lines. cbn [String.concat].
    rewrite !append_assoc. reflexivity. }
  split; [exact Htext |]. split; [reflexivity |].
  split; [exact or_else_None |]. split; [exact or_else_nonempty |].
  intros Hid. rewrite <- Htext.
  set (text := notification_text lead lead_id).
  set (tr0 := tr ++ [CreateDocument "lead" lead]).
  destruct (send_email_shape w notification_subject text tr0) as (b1 & evs1 & He & Hevs1).
  destruct (send_whatsapp_shape w text
              (tr0 ++ CallSendEmail notification_subject text :: evs1))
    as (b2 & evs2 & Hw & Hevs2).
  exists evs1, evs2. split.
  - unfold create_lead, try_except, bind, call_value, ret.
    rewrite Hid. fold text tr0. rewrite He. rewrite Hw. simpl.
    unfold tr0. rewrite <- !app_assoc. reflexivity.
  - destruct Hevs1 as [-> | ->], Hevs2 as [-> | ->]; simpl; repeat split; reflexivity.
Qed.

Lemma notification_body_layout_witness :
  exists evs1 evs2,
    snd (create_lead Demo.quiet Demo.alice []) =
    [] ++ CreateDocument "lead" Demo.alice
       :: (CallSendEmail "New IronPulse Lead"
             (String.concat newline (body_lines Demo.alice "65f0c0ffee")) :: evs1)
       ++ CallSendWhatsapp (String.concat newline (body_lines Demo.alice "65f0c0ffee")) :: evs2 /\
    count_events is_email_call evs1 = 0 /\ count_events is_whatsapp_call evs1 = 0 /\
    count_events is_email_call evs2 = 0 /\ count_events is_whatsapp_call evs2 = 0.
Proof.
  apply (proj2 (proj2 (proj2 (proj2
           (notification_body_layout Demo.quiet Demo.alice [] "65f0c0ffee"))))).
  reflexivity.
Defined.

Example alice_body_lines :
  body_lines Demo.alice "65f0c0ffee" =
  [ "New gym lead"; "Name: Alice"; "Phone: +1555000111"; "Email: -"; "Plan: -";
    "Message: -"; "Source: web"; "Lead ID: 65f0c0ffee" ].
Proof. reflexivity. Qed.

Example carol_body_lines :
  body_lines Demo.carol "7" =
  [ "New gym lead"; "Name: Carol"; "Phone: +1555000333"; "Email: carol@example.com";
    "Plan: Pro"; "Message: Call me"; "Source: landing"; "Lead ID: 7" ].
Proof. reflexivity. Qed.

(** ** Validation in front of the handler *)

(** C3: a payload without [name], without [phone], or with an [email] that
    is present and fails the syntactic check, is rejected with a validation
    error; the trace is unchanged, so [create_document] was not called and
    nothing was persisted. *)
Theorem invalid_payload_rejected
    (email_syntax_ok : string -> bool) (w : World) (p : Payload) (tr : list event) :
  p_name p = None \/ p_phone p = None \/
  (exists e, p_email p = Some e /\ email_syntax_ok e = false) ->
  post_api_leads email_syntax_ok w p tr = (Raises RequestValidationError, tr) /\
  count_events is_create (snd (post_api_leads email_syntax_ok w p tr)) =
  count_events is_create tr.
Proof.
  intros H.
  assert (Hv : validate email_syntax_ok p = None).
  { unfold validate. destruct H as [-> | [-> | (e & -> & ->)]].
    - reflexivity.
    - now destruct (p_name p).
    - now destruct (p_name p), (p_phone p). }
  unfold post_api_leads. rewrite Hv. unfold raise. split; reflexivity.
Qed.

Lemma invalid_payload_rejected_witness :
  post_api_leads (fun s => String.prefix "b" s) Demo.full
    (mkPayload (Some "Bob") (Some "+1555000222") (Some "not-an-email") None None None) [] =
  (Raises RequestValidationError, []).
Proof.
  apply (proj1 (invalid_payload_rejected (fun s => String.prefix "b" s) Demo.full
                  (mkPayload (Some "Bob") (Some "+1555000222") (Some "not-an-email")
                     None None None) []
                  (or_intror (or_intror (ex_intro _ "not-an-email" (conj eq_refl eq_refl)))))).
Defined.

Example valid_payload_reaches_store :
  snd (post_api_leads (fun _ => true) Demo.quiet
         (mkPayload (Some "Alice") (Some "+1555000111") None None None None) []) =
  [CreateDocument "lead" Demo.alice;
   CallSendEmail "New IronPulse Lead" (notification_text Demo.alice "65f0c0ffee");
   CallSendWhatsapp (notification_text Demo.alice "65f0c0ffee")].
Proof. vm_compute. reflexivity. Qed.

(** ** The diagnostics handler *)

Section Diagnostics.

Variable w : World.

Lemma test_database_email_provider :
  test_database w !! "email_provider" =
  Some (VStr (if env_set (environ w) "SENDGRID_API_KEY"
              then "✅ SendGrid" else "❌ Not Configured")).
Proof.
  unfold test_database. cbv zeta.
  rewrite lookup_insert_ne by discriminate.
  now rewrite lookup_insert_eq.
Qed.

Lemma test_database_whatsapp_provider :
  test_database w !! "whatsapp_provider" =
  Some (VStr (if env_set (environ w) "TWILIO_ACCOUNT_SID"
                 && env_set (environ w) "TWILIO_AUTH_TOKEN"
                 && env_set (environ w) "TWILIO_WHATSAPP_FROM"
              then "✅ Twilio" else "❌ Not Configured")).
Proof. unfold test_database. cbv zeta. now rewrite lookup_insert_eq. Qed.

Lemma test_database_database :
  test_database w !! "database" =
  Some (VStr
    match import_db w with
    | inr (Some db) =>
        match list_collection_names db with
        | inr _ => "✅ Connected & Working"
        | inl e => "⚠️  Connected but Error: " +:+ slice_to 50 (str e)
        end
    | inr None => "⚠️  Available but not initialized"
    | inl e =>
        if is_import_error e
        then "❌ Database module not found (run enable-database first)"
        else "❌ Error: " +:+ slice_to 50 (str e)
    end).
Proof.
  unfold test_database. cbv zeta.
  do 4 (rewrite lookup_insert_ne by discriminate).
  destruct (import_db w) as [e | [db |]].
  - destruct (is_import_error e); now rewrite lookup_insert_eq.
  - destruct (list_collection_names db); now rewrite lookup_insert_eq.
  - now rewrite lookup_insert_eq.
Qed.

Lemma test_database_collections :
  test_database w !! "collections" =
  Some (VList
    match import_db w with
    | inr (Some db) =>
        match list_collection_names db with
        | inr collections => take 10 collections
        | inl _ => []
        end
    | _ => []
    end).
Proof.
  unfold test_database. cbv zeta.
  do 4 (rewrite lookup_insert_ne by discriminate).
  destruct (import_db w) as [e | [db |]].
  - destruct (is_import_error e);
      rewrite lookup_insert_ne by discriminate;
      do 5 (rewrite lookup_insert_ne by discriminate);
      now rewrite lookup_insert_eq.
  - destruct (list_collection_names db).
    + do 5 (rewrite lookup_insert_ne by discriminate).
      do 5 (rewrite lookup_insert_ne by discriminate).
      now rewrite lookup_insert_eq.
    + rewrite lookup_insert_ne by discriminate.
      now rewrite lookup_insert_eq.
  - rewrite lookup_insert_ne by discriminate.
    do 5 (rewrite lookup_insert_ne by discriminate).
    now rewrite lookup_insert_eq.
Qed.

End Diagnostics.




(** Sixty two-byte letters are cut after fifty letters, not after fifty
    bytes. *)
Example accented_error_truncated :
  test_database Demo.accented !! "database" =
  Some (VStr ("⚠️  Connected but Error: " +:+ "éééééééééééééééééééééééééééééééééééééééééééééééééé")) /\
  len (str Demo.accented_error) = 60 /\
  String.length (slice_to 50 (str Demo.accented_error)) = 100.
Proof. repeat split; vm_compute; reflexivity. Qed.

Example utf8_of_code_points :
  utf8 [233%N] = "é" /\ utf8 [9989%N; 32%N; 82%N] = "✅ R" /\ utf8 [128512%N] = "😀" /\
  len "✅ Running" = 9.
Proof. repeat split; reflexivity. Qed.

Lemma email_can_succeed_iff (env : gmap string string) :
  email_can_succeed env <-> env_set env "SENDGRID_API_KEY" = true.
Proof.
  unfold env_set. split.
  - intros (w & subject & body & tr & tr' & <- & Hrun).
    destruct (truthy (getenv (environ w) "SENDGRID_API_KEY")) eqn:Hk; [reflexivity |].
    rewrite (send_email_unconfigured w subject body tr Hk) in Hrun. discriminate.
  - intros Hk.
    exists (mkWorld env Demo.store_ok Demo.provider_ok Demo.provider_ok (inr None)),
      "", "", [].
    eexists. split; [reflexivity |].
    now rewrite send_email_configured.
Qed.

Lemma whatsapp_can_succeed_iff (env : gmap string string) :
  whatsapp_can_succeed env <->
  env_set env "TWILIO_ACCOUNT_SID" && env_set env "TWILIO_AUTH_TOKEN"
    && env_set env "TWILIO_WHATSAPP_FROM" = true.
Proof.
  unfold env_set. split.
  - intros (w & msg & tr & tr' & <- & Hrun).
    destruct (truthy (getenv (environ w) "TWILIO_ACCOUNT_SID")
              && truthy (getenv (environ w) "TWILIO_AUTH_TOKEN")
              && truthy (getenv (environ w) "TWILIO_WHATSAPP_FROM")) eqn:Hc;
      [reflexivity |].
    rewrite (send_whatsapp_unconfigured w msg tr Hc) in Hrun. discriminate.
  - intros Hc.
    exists (mkWorld env Demo.store_ok Demo.provider_ok Demo.provider_ok (inr None)),
      "", [].
    eexists. split; [reflexivity |].
    now rewrite send_whatsapp_configured.
Qed.

(** C9: [/test] reports the email provider as configured exactly when
    [SENDGRID_API_KEY] is set (to a non-empty value, which is the test of the
    sender), and this is exactly when the email sender can return [True];
    it reports the messaging provider as configured exactly when
    [TWILIO_ACCOUNT_SID], [TWILIO_AUTH_TOKEN] and [TWILIO_WHATSAPP_FROM] are
    all set, and this is exactly when the messaging sender can return
    [True].  Otherwise the report is "Not Configured". *)
Theorem diagnostics_agree_with_senders (w : World) :
  (test_database w !! "email_provider" = Some (VStr "✅ SendGrid") <->
   env_set (environ w) "SENDGRID_API_KEY" = true) /\
  (env_set (environ w) "SENDGRID_API_KEY" = true <->
   email_can_succeed (environ w)) /\
  (test_database w !! "email_provider" = Some (VStr "❌ Not Configured") <->
   ~ email_can_succeed (environ w)) /\
  (test_database w !! "whatsapp_provider" = Some (VStr "✅ Twilio") <->
   env_set (environ w) "TWILIO_ACCOUNT_SID" = true /\
   env_set (environ w) "TWILIO_AUTH_TOKEN" = true /\
   env_set (environ w) "TWILIO_WHATSAPP_FROM" = true) /\
  (env_set (environ w) "TWILIO_ACCOUNT_SID" = true /\
   env_set (environ w) "TWILIO_AUTH_TOKEN" = true /\
   env_set (environ w) "TWILIO_WHATSAPP_FROM" = true <->
   whatsapp_can_succeed (environ w)) /\
  (test_database w !! "whatsapp_provider" = Some (VStr "❌ Not Configured") <->
   ~ whatsapp_can_succeed (environ w)).
Proof.
  rewrite test_database_email_provider, test_database_whatsapp_provider.
  rewrite email_can_succeed_iff, whatsapp_can_succeed_iff.
  destruct (env_set (environ w) "SENDGRID_API_KEY");
    destruct (env_set (environ w) "TWILIO_ACCOUNT_SID");
    destruct (env_set (environ w) "TWILIO_AUTH_TOKEN");
    destruct (env_set (environ w) "TWILIO_WHATSAPP_FROM");
    simpl; intuition (try discriminate; try congruence).
Qed.

Lemma diagnostics_agree_with_senders_witness :
  email_can_succeed (environ Demo.email_only) /\
  ~ whatsapp_can_succeed (environ Demo.twilio_partial).
Proof.
  split.
  - apply (proj1 (proj1 (proj2 (diagnostics_agree_with_senders Demo.email_only)))).
    reflexivity.
  - apply (proj1 (proj2 (proj2 (proj2 (proj2 (proj2
             (diagnostics_agree_with_senders Demo.twilio_partial))))))).
    reflexivity.
Defined.

(** C10: the [collections] entry of the [/test] response is a list of at
    most 10 names: the first 10 names of the listing when the listing
    succeeds, and the empty list otherwise. *)
Theorem diagnostics_collections_bounded (w : World) :
  exists cs : list string,
    test_database w !! "collections" = Some (VList cs) /\
    length cs <= 10 /\
    (forall db l, import_db w = inr (Some db) -> list_collection_names db = inr l ->
       cs = take 10 l) /\
    ((forall db l, import_db w = inr (Some db) -> list_collection_names db <> inr l) ->
       cs = []).
Proof.
  eexists. split; [apply test_database_collections |].
  destruct (import_db w) as [e | [db |]].
  - split; [simpl; lia | split; [discriminate | reflexivity]].
  - destruct (list_collection_names db) as [e | l] eqn:Hl.
    + split; [simpl; lia | split; [| reflexivity]].
      intros db' l' [= <-]. congruence.
    + split; [rewrite length_take; lia | split].
      * intros db' l' [= <-]. congruence.
      * intros H. exfalso. now apply (H db l).
  - split; [simpl; lia | split; [discriminate | reflexivity]].
Qed.

Lemma diagnostics_collections_bounded_witness :
  test_database Demo.full !! "collections" =
  Some (VList ["c01"; "c02"; "c03"; "c04"; "c05"; "c06"; "c07"; "c08"; "c09"; "c10"]).
Proof.
  destruct (diagnostics_collections_bounded Demo.full) as (cs & Hcs & _ & Hfirst & _).
  rewrite Hcs. rewrite (Hfirst Demo.db_many _ eq_refl eq_refl). reflexivity.
Defined.

(** ** Owner contacts and the sender address *)

(** The sender address follows the chain [SENDGRID_FROM_EMAIL], then
    [OWNER_EMAIL], then the literal default, where an unset and an empty
    variable are both skipped; so the sender address is never empty. *)
Theorem sendgrid_from_email_chain (env : gmap string string) :
  (env_set env "SENDGRID_FROM_EMAIL" = true ->
   Some (sendgrid_from_email env) = getenv env "SENDGRID_FROM_EMAIL") /\
  (env_set env "SENDGRID_FROM_EMAIL" = false -> env_set env "OWNER_EMAIL" = true ->
   Some (sendgrid_from_email env) = getenv env "OWNER_EMAIL") /\
  (env_set env "SENDGRID_FROM_EMAIL" = false -> env_set env "OWNER_EMAIL" = false ->
   sendgrid_from_email env = "krishpersonal6@gmail.com") /\
  sendgrid_from_email env <> "".
Proof.
  unfold sendgrid_from_email, env_set.
  destruct (getenv env "SENDGRID_FROM_EMAIL") as [[|c s] |];
    destruct (getenv env "OWNER_EMAIL") as [[|c' s'] |]; simpl;
    repeat split; intros; try discriminate; reflexivity.
Qed.

Lemma sendgrid_from_email_chain_witness :
  Some (sendgrid_from_email Demo.env_owner) = getenv Demo.env_owner "OWNER_EMAIL" /\
  sendgrid_from_email Demo.env_empty = "krishpersonal6@gmail.com".
Proof.
  split.
  - apply (proj1 (proj2 (sendgrid_from_email_chain Demo.env_owner))); reflexivity.
  - apply (proj1 (proj2 (proj2 (sendgrid_from_email_chain Demo.env_empty)))); reflexivity.
Defined.

(** Without a usable [SENDGRID_FROM_EMAIL], the notification mail is sent
    from the address it is sent to, unless [OWNER_EMAIL] is set to the empty
    string: then the recipient is empty and the sender is the default. *)
Theorem sendgrid_from_is_recipient (env : gmap string string) :
  env_set env "SENDGRID_FROM_EMAIL" = false ->
  (getenv env "OWNER_EMAIL" <> Some "" ->
   sendgrid_from_email env = fst (_owner_contacts env)) /\
  (getenv env "OWNER_EMAIL" = Some "" ->
   fst (_owner_contacts env) = "" /\
   sendgrid_from_email env = "krishpersonal6@gmail.com").
Proof.
  unfold sendgrid_from_email, env_set, _owner_contacts, getenv_default, getenv.
  intros Hf.
  destruct (env !! "SENDGRID_FROM_EMAIL") as [[|c s] |]; try discriminate;
    destruct (env !! "OWNER_EMAIL") as [[|c' s'] |]; simpl;
    split; intros H; try congruence; try discriminate; auto.
Qed.

Lemma sendgrid_from_is_recipient_witness :
  sendgrid_from_email Demo.env_owner = fst (_owner_contacts Demo.env_owner).
Proof.
  apply (proj1 (sendgrid_from_is_recipient Demo.env_owner eq_refl)).
  vm_compute. discriminate.
Defined.



(** ** What a sender call does, in full *)

(** The email sender returns [True] exactly when [SENDGRID_API_KEY] is set
    and the provider block runs to its end.  It reaches the provider once if
    the key is set and not at all otherwise, with the owner email as
    recipient, the subject unchanged and the body with its line breaks
    turned into [<br>]. *)
Theorem send_email_via_sendgrid_outcome
    (w : World) (subject body : string) (tr : list event) :
  exists b : bool,
    send_email_via_sendgrid w subject body tr =
    (Returns b,
     tr ++ CallSendEmail subject body ::
       (if env_set (environ w) "SENDGRID_API_KEY"
        then [SendGridAttempt (default "" (getenv (environ w) "SENDGRID_API_KEY"))
                (sendgrid_from_email (environ w)) (fst (_owner_contacts (environ w)))
                subject (replace_newline "<br>" body)]
        else [])) /\
    b = env_set (environ w) "SENDGRID_API_KEY"
        && completes (sendgrid_send w (tr ++ [CallSendEmail subject body])
                        (default "" (getenv (environ w) "SENDGRID_API_KEY"))
                        (sendgrid_from_email (environ w))
                        (fst (_owner_contacts (environ w)))
                        subject (replace_newline "<br>" body)).
Proof.
  unfold env_set.
  destruct (truthy (getenv (environ w) "SENDGRID_API_KEY")) eqn:Hk.
  - rewrite (send_email_configured w subject body tr Hk).
    rewrite <- app_assoc. eexists. split; [reflexivity |].
    now destruct (sendgrid_send w _ _ _ _ _ _).
  - rewrite (send_email_unconfigured w subject body tr Hk).
    eexists. split; reflexivity.
Qed.

(** The messaging sender never raises.  It returns [True] exactly when the
    three variables are set and the provider block runs to its end; a
    provider exception gives [False].  It reaches the provider once if
    configured and not at all otherwise, and hands over the message text
    unchanged. *)
Theorem send_whatsapp_via_twilio_outcome
    (w : World) (msg : string) (tr : list event) :
  exists b : bool,
    send_whatsapp_via_twilio w msg tr =
    (Returns b,
     tr ++ CallSendWhatsapp msg ::
       (if whatsapp_configured (environ w)
        then [TwilioAttempt (default "" (getenv (environ w) "TWILIO_ACCOUNT_SID"))
                (default "" (getenv (environ w) "TWILIO_AUTH_TOKEN"))
                (default "" (getenv (environ w) "TWILIO_WHATSAPP_FROM"))
                (to_whatsapp (snd (_owner_contacts (environ w)))) msg]
        else [])) /\
    b = whatsapp_configured (environ w)
        && completes (twilio_create w (tr ++ [CallSendWhatsapp msg])
                        (default "" (getenv (environ w) "TWILIO_ACCOUNT_SID"))
                        (default "" (getenv (environ w) "TWILIO_AUTH_TOKEN"))
                        (default "" (getenv (environ w) "TWILIO_WHATSAPP_FROM"))
                        (to_whatsapp (snd (_owner_contacts (environ w)))) msg).
Proof.
  unfold whatsapp_configured, env_set.
  destruct (truthy (getenv (environ w) "TWILIO_ACCOUNT_SID")
            && truthy (getenv (environ w) "TWILIO_AUTH_TOKEN")
            && truthy (getenv (environ w) "TWILIO_WHATSAPP_FROM")) eqn:Hc.
  - rewrite (send_whatsapp_configured w msg tr Hc).
    rewrite <- app_assoc. eexists. split; [reflexivity |].
    now destruct (twilio_create w _ _ _ _ _ _).
  - rewrite (send_whatsapp_unconfigured w msg tr Hc).
    eexists. split; reflexivity.
Qed.

(** ** Line breaks *)

Lemma count_newlines_append (a b : string) :
  count_newlines (a +:+ b) = count_newlines a + count_newlines b.
Proof. induction a as [|c a IH]; simpl; [reflexivity | rewrite IH; lia]. Qed.

Lemma replace_newline_append (t a b : string) :
  replace_newline t (a +:+ b) = replace_newline t a +:+ replace_newline t b.
Proof.
  induction a as [|c a IH]; simpl; [reflexivity |].
  rewrite IH. destruct (Ascii.eqb c (ascii_of_nat 10)); [| reflexivity].
  now rewrite append_assoc.
Qed.

Lemma replace_newline_id (t s : string) :
  count_newlines s = 0 -> replace_newline t s = s.
Proof.
  induction s as [|c s IH]; simpl; [reflexivity |].
  destruct (Ascii.eqb c (ascii_of_nat 10)); [discriminate |].
  intros H. now rewrite IH.
Qed.

Lemma replace_newline_join (t : string) (ls : list string) :
  replace_newline t (String.concat newline ls) =
  String.concat t (map (replace_newline t) ls).
Proof.
  induction ls as [|l ls IH]; [reflexivity |].
  destruct ls as [|l' ls]; [reflexivity |].
  change (String.concat newline (l :: l' :: ls))
    with (l +:+ newline +:+ String.concat newline (l' :: ls)).
  change (String.concat t (map (replace_newline t) (l :: l' :: ls)))
    with (replace_newline t l +:+ t
          +:+ String.concat t (map (replace_newline t) (l' :: ls))).
  rewrite !replace_newline_append, IH.
  f_equal. f_equal. unfold newline. simpl.
  clear. induction t as [|c t IHt]; simpl; [reflexivity | now rewrite IHt].
Qed.

(** The markup handed to the email provider contains no line break: every
    one has become [<br>], the rest of the text is kept, and the markup is
    longer than the body by three characters for each line break. *)
Theorem html_content_has_no_newline (body : string) :
  count_newlines (replace_newline "<br>" body) = 0 /\
  String.length (replace_newline "<br>" body) =
  String.length body + 3 * count_newlines body /\
  (count_newlines body = 0 -> replace_newline "<br>" body = body).
Proof.
  split; [| split]; [| | apply replace_newline_id].
  - induction body as [|c s IH]; simpl; [reflexivity |].
    destruct (Ascii.eqb c (ascii_of_nat 10)) eqn:Hc; simpl.
    + exact IH.
    + rewrite Hc. exact IH.
  - induction body as [|c s IH]; simpl; [reflexivity |].
    destruct (Ascii.eqb c (ascii_of_nat 10)); simpl; rewrite IH; lia.
Qed.

Lemma html_content_has_no_newline_witness :
  replace_newline "<br>" "no line break here" = "no line break here".
Proof.
  apply (proj2 (proj2 (html_content_has_no_newline "no line break here"))).
  reflexivity.
Defined.

(** A body made of lines joined by line breaks reaches the email provider as
    the same lines joined by [<br>], when no line contains a line break of
    its own. *)
Theorem send_email_joins_lines_with_br
    (w : World) (subject : string) (lines : list string) (tr : list event) :
  env_set (environ w) "SENDGRID_API_KEY" = true ->
  Forall (fun l => count_newlines l = 0) lines ->
  snd (send_email_via_sendgrid w subject (String.concat newline lines) tr) =
  tr ++ [CallSendEmail subject (String.concat newline lines);
         SendGridAttempt (default "" (getenv (environ w) "SENDGRID_API_KEY"))
           (sendgrid_from_email (environ w)) (fst (_owner_contacts (environ w)))
           subject (String.concat "<br>" lines)].
Proof.
  intros Hk Hlines. unfold env_set in Hk.
  rewrite (send_email_configured w subject _ tr Hk). simpl.
  rewrite <- app_assoc. simpl. unfold sendgrid_attempt.
  rewrite replace_newline_join.
  replace (map (replace_newline "<br>") lines) with lines; [reflexivity |].
  induction Hlines as [|l ls Hl _ IH]; simpl; [reflexivity |].
  now rewrite (replace_newline_id "<br>" l Hl), <- IH.
Qed.

Lemma send_email_joins_lines_with_br_witness :
  snd (send_email_via_sendgrid Demo.owner "s" (String.concat newline ["a"; "b"; "c"]) []) =
  [] ++ [CallSendEmail "s" (String.concat newline ["a"; "b"; "c"]);
         SendGridAttempt "SG.key" "owner@gym.example" "owner@gym.example" "s" "a<br>b<br>c"].
Proof.
  apply (send_email_joins_lines_with_br Demo.owner "s" ["a"; "b"; "c"] [] eq_refl).
  repeat constructor.
Defined.

(** The notification body has seven line breaks of its own, plus those
    that the fields of the lead and the identifier bring along. *)
Theorem notification_text_line_breaks (lead : Lead) (lead_id : string) :
  count_newlines (notification_text lead lead_id) =
  7 + count_newlines (name lead) + count_newlines (phone lead)
    + count_newlines (or_else (email lead) "-")
    + count_newlines (or_else (selected_plan lead) "-")
    + count_newlines (or_else (message lead) "-")
    + count_newlines (or_else (source lead) "web")
    + count_newlines lead_id.
Proof.
  unfold notification_text. rewrite !count_newlines_append. simpl. lia.
Qed.

(** ** The lead handler, in full *)

(** On a successful store call the request is, in this order: the store
    call, the email sender (reaching its provider if configured), the
    messaging sender (reaching its provider if configured).  [email_sent] is
    true exactly when the key is set and the email provider block completes,
    [whatsapp_sent] exactly when the three variables are set and the
    messaging provider block completes. *)
Theorem create_lead_trace
    (w : World) (lead : Lead) (tr : list event) (lead_id : string) :
  create_document w tr "lead" lead = inr lead_id ->
  let text := notification_text lead lead_id in
  let tr0 := tr ++ [CreateDocument "lead" lead] in
  let email_evs :=
    CallSendEmail "New IronPulse Lead" text ::
    (if env_set (environ w) "SENDGRID_API_KEY"
     then [sendgrid_attempt w "New IronPulse Lead" text] else []) in
  let wa_evs :=
    CallSendWhatsapp text ::
    (if whatsapp_configured (environ w) then [twilio_attempt w text] else []) in
  let email_sent :=
    env_set (environ w) "SENDGRID_API_KEY"
    && completes (sendgrid_send w (tr0 ++ [CallSendEmail "New IronPulse Lead" text])
                    (default "" (getenv (environ w) "SENDGRID_API_KEY"))
                    (sendgrid_from_email (environ w))
                    (fst (_owner_contacts (environ w)))
                    "New IronPulse Lead" (replace_newline "<br>" text)) in
  let wa_sent :=
    whatsapp_configured (environ w)
    && completes (twilio_create w ((tr0 ++ email_evs) ++ [CallSendWhatsapp text])
                    (default "" (getenv (environ w) "TWILIO_ACCOUNT_SID"))
                    (default "" (getenv (environ w) "TWILIO_AUTH_TOKEN"))
                    (default "" (getenv (environ w) "TWILIO_WHATSAPP_FROM"))
                    (to_whatsapp (snd (_owner_contacts (environ w)))) text) in
  create_lead w lead tr =
  (Returns (lead_response lead_id email_sent wa_sent), (tr0 ++ email_evs) ++ wa_evs).
Proof.
  intros Hid text tr0 email_evs wa_evs email_sent wa_sent.
  unfold create_lead, try_except, bind, call_value, ret.
  rewrite Hid. fold text tr0. change notification_subject with "New IronPulse Lead".
  subst email_sent wa_sent email_evs wa_evs.
  unfold whatsapp_configured, env_set.
  destruct (truthy (getenv (environ w) "SENDGRID_API_KEY")) eqn:Hk;
    [rewrite (send_email_configured w _ text tr0 Hk)
    |rewrite (send_email_unconfigured w _ text tr0 Hk)];
    (destruct (truthy (getenv (environ w) "TWILIO_ACCOUNT_SID")
               && truthy (getenv (environ w) "TWILIO_AUTH_TOKEN")
               && truthy (getenv (environ w) "TWILIO_WHATSAPP_FROM")) eqn:Hc;
     [rewrite (send_whatsapp_configured w text _ Hc)
     |rewrite (send_whatsapp_unconfigured w text _ Hc)]);
    unfold sendgrid_attempt, twilio_attempt;
    rewrite <- ?app_assoc; cbn [app andb];
    repeat match goal with
           | |- context [completes ?o] => destruct o; cbn [completes]
           end;
    reflexivity.
Qed.

Lemma create_lead_trace_witness :
  create_lead Demo.owner Demo.alice [] =
  (Returns (lead_response "65f0c0ffee" true false),
   [CreateDocument "lead" Demo.alice;
    CallSendEmail "New IronPulse Lead" (notification_text Demo.alice "65f0c0ffee");
    sendgrid_attempt Demo.owner "New IronPulse Lead" (notification_text Demo.alice "65f0c0ffee");
    CallSendWhatsapp (notification_text Demo.alice "65f0c0ffee")]).
Proof.
  apply (create_lead_trace Demo.owner Demo.alice [] "65f0c0ffee" eq_refl).
Defined.

Lemma create_lead_new_events (w : World) (lead : Lead) (tr : list event) :
  match create_document w tr "lead" lead with
  | inl e =>
      create_lead w lead tr =
      (Raises (HTTPException 500 (str e)), tr ++ [CreateDocument "lead" lead])
  | inr lead_id =>
      exists b1 b2 evs1 evs2,
        create_lead w lead tr =
        (Returns (lead_response lead_id b1 b2),
         tr ++ CreateDocument "lead" lead
            :: (CallSendEmail notification_subject (notification_text lead lead_id) :: evs1)
            ++ CallSendWhatsapp (notification_text lead lead_id) :: evs2) /\
        (evs1 = [] \/
         evs1 = [sendgrid_attempt w notification_subject (notification_text lead lead_id)]) /\
        (evs2 = [] \/ evs2 = [twilio_attempt w (notification_text lead lead_id)])
  end.
Proof.
  destruct (create_document w tr "lead" lead) as [e | lead_id] eqn:Hid.
  - unfold create_lead, try_except, bind, call_value, raise. now rewrite Hid.
  - set (text := notification_text lead lead_id).
    set (tr0 := tr ++ [CreateDocument "lead" lead]).
    destruct (send_email_shape w notification_subject text tr0) as (b1 & evs1 & He & Hevs1).
    destruct (send_whatsapp_shape w text
                (tr0 ++ CallSendEmail notification_subject text :: evs1))
      as (b2 & evs2 & Hw & Hevs2).
    exists b1, b2, evs1, evs2. split; [| split; assumption].
    unfold create_lead, try_except, bind, call_value, ret.
    rewrite Hid. fold text tr0. rewrite He, Hw.
    unfold tr0. rewrite <- !app_assoc. reflexivity.
Qed.

(** Every request makes exactly one store call, first, for the collection
    ["lead"] and with the lead as received.  The handler then either returns
    a response for the identifier the store gave, or raises the HTTP error
    500 with the text of the store's exception; it fails in no other way. *)
Theorem create_lead_outcomes (w : World) (lead : Lead) (tr : list event) :
  exists evs : list event,
    snd (create_lead w lead tr) = tr ++ CreateDocument "lead" lead :: evs /\
    count_events is_create evs = 0 /\
    match create_document w tr "lead" lead with
    | inr lead_id =>
        exists email_sent wa_sent,
          fst (create_lead w lead tr) = Returns (lead_response lead_id email_sent wa_sent)
    | inl e =>
        fst (create_lead w lead tr) = Raises (HTTPException 500 (str e)) /\ evs = []
    end.
Proof.
  pose proof (create_lead_new_events w lead tr) as Hrun.
  destruct (create_document w tr "lead" lead) as [e | lead_id].
  - exists []. rewrite Hrun. simpl. auto.
  - destruct Hrun as (b1 & b2 & evs1 & evs2 & Hrun & Hevs1 & Hevs2).
    rewrite Hrun. cbn [fst snd].
    eexists. split; [reflexivity |]. split; [| eauto].
    simpl. rewrite count_events_app.
    destruct Hevs1 as [-> | ->], Hevs2 as [-> | ->]; reflexivity.
Qed.

(** Requests keep the trace balanced: after any number of them the two
    senders were entered equally often and no more often than the store was
    called, and each provider was reached no more often than its sender was
    entered. *)
Theorem create_lead_keeps_balance (w : World) (lead : Lead) (tr : list event) :
  notifications_balanced tr ->
  notifications_balanced (snd (create_lead w lead tr)).
Proof.
  unfold notifications_balanced. intros (Heq & Hle & Hsg & Htw).
  pose proof (create_lead_new_events w lead tr) as Hrun.
  destruct (create_document w tr "lead" lead) as [e | lead_id].
  - rewrite Hrun. cbn [snd]. rewrite !count_events_app. simpl. lia.
  - destruct Hrun as (b1 & b2 & evs1 & evs2 & Hrun & Hevs1 & Hevs2).
    rewrite Hrun. cbn [snd].
    rewrite !count_events_app. simpl. rewrite !count_events_app. simpl.
    destruct Hevs1 as [-> | ->], Hevs2 as [-> | ->]; simpl; lia.
Qed.

Lemma create_lead_keeps_balance_witness :
  notifications_balanced
    (snd (create_lead Demo.failing Demo.carol (snd (create_lead Demo.full Demo.alice [])))).
Proof.
  apply create_lead_keeps_balance. apply create_lead_keeps_balance.
  unfold notifications_balanced. simpl. lia.
Defined.

(** ** The diagnostics handler, in full *)

(** The [/test] response always has the same eight keys. *)
Theorem test_database_keys (w : World) :
  dom (test_database w) =
  ({[ "backend"; "database"; "database_url"; "database_name"; "connection_status";
      "collections"; "email_provider"; "whatsapp_provider" ]} : gset string).
Proof.
  unfold test_database. cbv zeta.
  destruct (import_db w) as [e | [db |]];
    [destruct (is_import_error e) | destruct (list_collection_names db) |];
    rewrite !dom_insert_L, dom_empty_L; set_solver.
Qed.

(** [database_url] and [database_name] report only whether [DATABASE_URL]
    and [DATABASE_NAME] are set: what the handler wrote there for a live
    handle, the name of the database included, is always overwritten. *)
Theorem test_database_env_flags (w : World) :
  test_database w !! "database_url" =
    Some (VStr (if env_set (environ w) "DATABASE_URL" then "✅ Set" else "❌ Not Set")) /\
  test_database w !! "database_name" =
    Some (VStr (if env_set (environ w) "DATABASE_NAME" then "✅ Set" else "❌ Not Set")).
Proof.
  unfold test_database, env_flag, env_set. cbv zeta. split.
  - do 3 (rewrite lookup_insert_ne by discriminate). now rewrite lookup_insert_eq.
  - do 2 (rewrite lookup_insert_ne by discriminate). now rewrite lookup_insert_eq.
Qed.

Lemma test_database_connection_status (w : World) :
  test_database w !! "connection_status" =
  Some (VStr match import_db w with
             | inr (Some _) => "Connected"
             | _ => "Not Connected"
             end).
Proof.
  unfold test_database. cbv zeta.
  do 4 (rewrite lookup_insert_ne by discriminate).
  destruct (import_db w) as [e | [db |]].
  - destruct (is_import_error e);
      do 5 (rewrite lookup_insert_ne by discriminate); now rewrite lookup_insert_eq.
  - destruct (list_collection_names db).
    + rewrite lookup_insert_ne by discriminate. now rewrite lookup_insert_eq.
    + do 2 (rewrite lookup_insert_ne by discriminate). now rewrite lookup_insert_eq.
  - do 5 (rewrite lookup_insert_ne by discriminate). now rewrite lookup_insert_eq.
Qed.

(** [/test] always reports the backend as running.  It reports
    ["Connected"] exactly when the imported handle is not [None], also when
    listing its collections then fails; and it reports the database as
    ["Connected & Working"] exactly when the listing succeeds. *)
Theorem test_database_states (w : World) :
  test_database w !! "backend" = Some (VStr "✅ Running") /\
  (test_database w !! "connection_status" = Some (VStr "Connected") <->
   exists db, import_db w = inr (Some db)) /\
  (test_database w !! "connection_status" = Some (VStr "Not Connected") <->
   forall db, import_db w <> inr (Some db)) /\
  (test_database w !! "database" = Some (VStr "✅ Connected & Working") <->
   exists db l, import_db w = inr (Some db) /\ list_collection_names db = inr l).
Proof.
  split; [| split; [| split]].
  - unfold test_database. cbv zeta.
    do 4 (rewrite lookup_insert_ne by discriminate).
    destruct (import_db w) as [e | [db |]];
      [destruct (is_import_error e) | destruct (list_collection_names db) |];
      repeat (rewrite lookup_insert_ne by discriminate); now rewrite lookup_insert_eq.
  - rewrite test_database_connection_status.
    destruct (import_db w) as [e | [db |]]; split;
      try discriminate; eauto; intros [db' H]; discriminate.
  - rewrite test_database_connection_status.
    destruct (import_db w) as [e | [db |]]; split;
      try discriminate; try reflexivity; intros H; try (intros db'; discriminate).
    exfalso. now apply (H db).
  - rewrite test_database_database.
    destruct (import_db w) as [e | [db |]].
    + split; [| intros (db' & l & H & _); discriminate].
      destruct (is_import_error e); simpl; discriminate.
    + destruct (list_collection_names db) as [e | l] eqn:Hl.
      * split; [simpl; discriminate |].
        intros (db' & l & [= <-] & H). congruence.
      * split; eauto.
    + split; [simpl; discriminate | intros (db' & l & H & _); discriminate].
Qed.

Lemma test_database_states_witness :
  test_database Demo.failing !! "connection_status" = Some (VStr "Connected") /\
  test_database Demo.full !! "database" = Some (VStr "✅ Connected & Working").
Proof.
  split.
  - apply (proj2 (proj1 (proj2 (test_database_states Demo.failing)))).
    exists Demo.db_broken. reflexivity.
  - apply (proj2 (proj2 (proj2 (proj2 (test_database_states Demo.full))))).
    exists Demo.db_many. eexists. split; reflexivity.
Defined.
